(** * Pipeline: the C structures behind SQLite virtual tables

    [Sources/CPipeline/include/cpipeline_vtab.h] declares two structures,
    [cpipeline_sqlite3_vtab] and [cpipeline_sqlite3_vtab_cursor].  Each one
    embeds the structure SQLite requires ([sqlite3_vtab], respectively
    [sqlite3_vtab_cursor]) as its first member [base], followed by one
    [void *] that the Swift side uses to find its own object again.

    The development has four layers:
    - the header as a list of declarations, member by member;
    - the C layout rules (members in declaration order, each at the next
      offset that is a multiple of its alignment) over a target description;
    - objects as byte sequences, with bounds-checked member loads and stores;
    - the two structures as records of member values, read from an object. *)

From Stdlib Require Import ZArith List String Bool Lia PeanoNat.
From coqutil Require Import Byte Word.LittleEndianList.
Import ListNotations.

Local Open Scope string_scope.
Local Open Scope list_scope.
Local Open Scope nat_scope.

(** ** The header, declaration by declaration *)

Inductive ctype : Type :=
| Tvoid
| Tnamed (name : string)
| Tstruct (tag : string)
| Tpointer (target : ctype).

Record member : Type := Member { m_type : ctype; m_name : string }.

Inductive declaration : Type :=
| IncludeHeader (file : string)
| StructDef (tag : string) (members : list member)
| Typedef (type : ctype) (alias : string)
| FunctionDecl (result : ctype) (name : string) (params : list ctype).

(** [struct cpipeline_sqlite3_vtab { sqlite3_vtab base;
                                     void *virtual_table_module_ptr; }] *)
Definition struct_cpipeline_sqlite3_vtab : list member :=
  [ Member (Tnamed "sqlite3_vtab") "base";
    Member (Tpointer Tvoid) "virtual_table_module_ptr" ].

(** [struct cpipeline_sqlite3_vtab_cursor { sqlite3_vtab_cursor base;
                                            void *virtual_table_cursor_ptr; }] *)
Definition struct_cpipeline_sqlite3_vtab_cursor : list member :=
  [ Member (Tnamed "sqlite3_vtab_cursor") "base";
    Member (Tpointer Tvoid) "virtual_table_cursor_ptr" ].

Definition cpipeline_vtab_h : list declaration :=
  [ IncludeHeader "sqlite3.h";
    StructDef "cpipeline_sqlite3_vtab" struct_cpipeline_sqlite3_vtab;
    Typedef (Tstruct "cpipeline_sqlite3_vtab") "cpipeline_sqlite3_vtab";
    StructDef "cpipeline_sqlite3_vtab_cursor" struct_cpipeline_sqlite3_vtab_cursor;
    Typedef (Tstruct "cpipeline_sqlite3_vtab_cursor") "cpipeline_sqlite3_vtab_cursor" ].

(** The record types a header defines, and the functions it declares. *)
Fixpoint struct_defs (ds : list declaration) : list (string * list member) :=
  match ds with
  | [] => []
  | StructDef tag ms :: rest => (tag, ms) :: struct_defs rest
  | _ :: rest => struct_defs rest
  end.

Fixpoint functions (ds : list declaration) : list string :=
  match ds with
  | [] => []
  | FunctionDecl _ name _ :: rest => name :: functions rest
  | _ :: rest => functions rest
  end.

(** ** The target

    [sqlite3.h] belongs to SQLite, not to this repository, and the size of a
    pointer belongs to the platform.  What the layout needs from them is a
    size and an alignment for [sqlite3_vtab], for [sqlite3_vtab_cursor] and
    for [void *], and the byte order of a pointer; they are taken as a
    parameter. *)

Record abi : Type := Abi {
  sizeof_ptr : nat;
  alignof_ptr : nat;
  sizeof_sqlite3_vtab : nat;
  alignof_sqlite3_vtab : nat;
  sizeof_sqlite3_vtab_cursor : nat;
  alignof_sqlite3_vtab_cursor : nat;
  big_endian : bool
}.

(** C asks of every complete object type a positive size that is a multiple
    of its positive alignment. *)
Definition type_ok (size align : nat) : bool :=
  (0 <? align) && (0 <? size) && (size mod align =? 0).

Definition abi_wf (a : abi) : bool :=
  type_ok (sizeof_ptr a) (alignof_ptr a)
  && type_ok (sizeof_sqlite3_vtab a) (alignof_sqlite3_vtab a)
  && type_ok (sizeof_sqlite3_vtab_cursor a) (alignof_sqlite3_vtab_cursor a).

(** 64-bit little-endian targets (x86-64, arm64): SQLite's [sqlite3_vtab] is
    two pointers around an [int], [sqlite3_vtab_cursor] is one pointer. *)
Definition lp64 : abi := Abi 8 8 24 8 8 8 false.

(** A 32-bit big-endian target. *)
Definition ilp32_be : abi := Abi 4 4 12 4 4 4 true.

Definition sizeof_type (a : abi) (t : ctype) : option nat :=
  match t with
  | Tpointer _ => Some (sizeof_ptr a)
  | Tnamed n =>
      if String.eqb n "sqlite3_vtab" then Some (sizeof_sqlite3_vtab a)
      else if String.eqb n "sqlite3_vtab_cursor" then Some (sizeof_sqlite3_vtab_cursor a)
      else None
  | Tvoid | Tstruct _ => None
  end.

Definition alignof_type (a : abi) (t : ctype) : option nat :=
  match t with
  | Tpointer _ => Some (alignof_ptr a)
  | Tnamed n =>
      if String.eqb n "sqlite3_vtab" then Some (alignof_sqlite3_vtab a)
      else if String.eqb n "sqlite3_vtab_cursor" then Some (alignof_sqlite3_vtab_cursor a)
      else None
  | Tvoid | Tstruct _ => None
  end.

(** ** Structure layout *)

(** The least multiple of [a] that is at least [n]. *)
Definition align_up (n a : nat) : nat := (n + a - 1) / a * a.

(** Offset of member [f], the members before it starting at [cur]. *)
Fixpoint offsetof_from (a : abi) (cur : nat) (ms : list member) (f : string)
  : option nat :=
  match ms with
  | [] => None
  | m :: rest =>
      match sizeof_type a (m_type m), alignof_type a (m_type m) with
      | Some sz, Some al =>
          let off := align_up cur al in
          if String.eqb (m_name m) f then Some off
          else offsetof_from a (off + sz) rest f
      | _, _ => None
      end
  end.

Definition offsetof (a : abi) (ms : list member) (f : string) : option nat :=
  offsetof_from a 0 ms f.

(** Offset just past the last member. *)
Fixpoint members_end (a : abi) (cur : nat) (ms : list member) : option nat :=
  match ms with
  | [] => Some cur
  | m :: rest =>
      match sizeof_type a (m_type m), alignof_type a (m_type m) with
      | Some sz, Some al => members_end a (align_up cur al + sz) rest
      | _, _ => None
      end
  end.

(** A structure is as aligned as its most aligned member. *)
Fixpoint alignof_struct (a : abi) (ms : list member) : option nat :=
  match ms with
  | [] => Some 1
  | m :: rest =>
      match alignof_type a (m_type m), alignof_struct a rest with
      | Some al, Some al' => Some (Nat.max al al')
      | _, _ => None
      end
  end.

Definition sizeof_struct (a : abi) (ms : list member) : option nat :=
  match members_end a 0 ms, alignof_struct a ms with
  | Some e, Some al => Some (align_up e al)
  | _, _ => None
  end.

Fixpoint member_type (ms : list member) (f : string) : option ctype :=
  match ms with
  | [] => None
  | m :: rest => if String.eqb (m_name m) f then Some (m_type m) else member_type rest f
  end.

Definition sizeof_member (a : abi) (ms : list member) (f : string) : option nat :=
  match member_type ms f with
  | Some t => sizeof_type a t
  | None => None
  end.

(** ** Addresses

    An address is an integer.  [&p->f] is [p] advanced by the offset of [f];
    going from a member back to its structure subtracts it again. *)

Definition member_ptr (a : abi) (ms : list member) (f : string) (p : Z) : option Z :=
  option_map (fun off => (p + Z.of_nat off)%Z) (offsetof a ms f).

Definition container_of (a : abi) (ms : list member) (f : string) (q : Z) : option Z :=
  option_map (fun off => (q - Z.of_nat off)%Z) (offsetof a ms f).

(** ** Objects

    An object is the sequence of bytes it occupies.  A read or a write that
    would leave the object has no result. *)

Definition object : Type := list byte.

Definition read_bytes (off n : nat) (o : object) : option (list byte) :=
  if off + n <=? List.length o then Some (firstn n (skipn off o)) else None.

Definition write_bytes (off : nat) (bs : list byte) (o : object) : option object :=
  if off + List.length bs <=? List.length o
  then Some (firstn off o ++ bs ++ skipn (off + List.length bs) o)
  else None.

(** [o.f] and [o.f = v], on the bytes of the member.  A stored value has the
    member's type, so its size. *)
Definition load_member (a : abi) (ms : list member) (f : string) (o : object)
  : option (list byte) :=
  match offsetof a ms f, sizeof_member a ms f with
  | Some off, Some sz => read_bytes off sz o
  | _, _ => None
  end.

Definition store_member (a : abi) (ms : list member) (f : string)
    (v : list byte) (o : object) : option object :=
  match offsetof a ms f, sizeof_member a ms f with
  | Some off, Some sz => if List.length v =? sz then write_bytes off v o else None
  | _, _ => None
  end.

(** ** Pointer values

    A [void *] is an unsigned integer of [sizeof_ptr] bytes; [NULL] is 0. *)

Definition NULL : Z := 0%Z.

Definition is_ptr (a : abi) (p : Z) : bool :=
  ((0 <=? p) && (p <? 2 ^ (Z.of_nat (sizeof_ptr a) * 8)))%Z.

Definition encode_ptr (a : abi) (p : Z) : list byte :=
  let bs := le_split (sizeof_ptr a) p in
  if big_endian a then rev bs else bs.

Definition decode_ptr (a : abi) (bs : list byte) : Z :=
  le_combine (if big_endian a then rev bs else bs).

Definition load_ptr (a : abi) (ms : list member) (f : string) (o : object)
  : option Z :=
  option_map (decode_ptr a) (load_member a ms f o).

Definition store_ptr (a : abi) (ms : list member) (f : string) (p : Z)
    (o : object) : option object :=
  store_member a ms f (encode_ptr a p) o.

(** ** The two structures as values

    A value of [sqlite3_vtab] or of [sqlite3_vtab_cursor] is kept as the
    bytes that represent it: their members are SQLite's. *)

Module VTab.

Record cpipeline_sqlite3_vtab : Type := {
  base : list byte;
  virtual_table_module_ptr : Z
}.

Definition members : list member := struct_cpipeline_sqlite3_vtab.

Definition get_base (a : abi) (o : object) : option (list byte) :=
  load_member a members "base" o.

Definition set_base (a : abi) (b : list byte) (o : object) : option object :=
  store_member a members "base" b o.

Definition get_virtual_table_module_ptr (a : abi) (o : object) : option Z :=
  load_ptr a members "virtual_table_module_ptr" o.

Definition set_virtual_table_module_ptr (a : abi) (p : Z) (o : object)
  : option object :=
  store_ptr a members "virtual_table_module_ptr" p o.

(** The value an object holds. *)
Definition read (a : abi) (o : object) : option cpipeline_sqlite3_vtab :=
  match get_base a o, get_virtual_table_module_ptr a o with
  | Some b, Some p => Some {| base := b; virtual_table_module_ptr := p |}
  | _, _ => None
  end.

(** [SQLite] hands callbacks a [sqlite3_vtab *]; the structure is found
    again by converting the pointer. *)
Definition to_sqlite3_vtab (a : abi) (p : Z) : option Z :=
  member_ptr a members "base" p.

Definition of_sqlite3_vtab (a : abi) (q : Z) : option Z :=
  container_of a members "base" q.

End VTab.

Module Cursor.

Record cpipeline_sqlite3_vtab_cursor : Type := {
  base : list byte;
  virtual_table_cursor_ptr : Z
}.

Definition members : list member := struct_cpipeline_sqlite3_vtab_cursor.

Definition get_base (a : abi) (o : object) : option (list byte) :=
  load_member a members "base" o.

Definition set_base (a : abi) (b : list byte) (o : object) : option object :=
  store_member a members "base" b o.

Definition get_virtual_table_cursor_ptr (a : abi) (o : object) : option Z :=
  load_ptr a members "virtual_table_cursor_ptr" o.

Definition set_virtual_table_cursor_ptr (a : abi) (p : Z) (o : object)
  : option object :=
  store_ptr a members "virtual_table_cursor_ptr" p o.

Definition read (a : abi) (o : object) : option cpipeline_sqlite3_vtab_cursor :=
  match get_base a o, get_virtual_table_cursor_ptr a o with
  | Some b, Some p => Some {| base := b; virtual_table_cursor_ptr := p |}
  | _, _ => None
  end.

Definition to_sqlite3_vtab_cursor (a : abi) (p : Z) : option Z :=
  member_ptr a members "base" p.

Definition of_sqlite3_vtab_cursor (a : abi) (q : Z) : option Z :=
  container_of a members "base" q.

End Cursor.

(** ** Either structure

    What is said of one structure is said of the other; [handle] names
    which. *)

Inductive handle : Type := VTabHandle | VTabCursorHandle.

Definition members_of (h : handle) : list member :=
  match h with
  | VTabHandle => VTab.members
  | VTabCursorHandle => Cursor.members
  end.

Definition ptr_member (h : handle) : string :=
  match h with
  | VTabHandle => "virtual_table_module_ptr"
  | VTabCursorHandle => "virtual_table_cursor_ptr"
  end.

Definition sizeof_base (a : abi) (h : handle) : nat :=
  match h with
  | VTabHandle => sizeof_sqlite3_vtab a
  | VTabCursorHandle => sizeof_sqlite3_vtab_cursor a
  end.

Definition sizeof_handle (a : abi) (h : handle) : option nat :=
  sizeof_struct a (members_of h).

Definition get_base (a : abi) (h : handle) (o : object) : option (list byte) :=
  match h with
  | VTabHandle => VTab.get_base a o
  | VTabCursorHandle => Cursor.get_base a o
  end.

Definition set_base (a : abi) (h : handle) (b : list byte) (o : object)
  : option object :=
  match h with
  | VTabHandle => VTab.set_base a b o
  | VTabCursorHandle => Cursor.set_base a b o
  end.

Definition get_ptr (a : abi) (h : handle) (o : object) : option Z :=
  match h with
  | VTabHandle => VTab.get_virtual_table_module_ptr a o
  | VTabCursorHandle => Cursor.get_virtual_table_cursor_ptr a o
  end.

Definition set_ptr (a : abi) (h : handle) (p : Z) (o : object) : option object :=
  match h with
  | VTabHandle => VTab.set_virtual_table_module_ptr a p o
  | VTabCursorHandle => Cursor.set_virtual_table_cursor_ptr a p o
  end.

Definition alignof_base (a : abi) (h : handle) : nat :=
  match h with
  | VTabHandle => alignof_sqlite3_vtab a
  | VTabCursorHandle => alignof_sqlite3_vtab_cursor a
  end.

(** A range of bytes: [n] bytes from offset [off]. *)
Definition in_range (off n i : nat) : Prop := off <= i < off + n.

Definition disjoint_ranges (off1 n1 off2 n2 : nat) : Prop :=
  forall i, ~ (in_range off1 n1 i /\ in_range off2 n2 i).

(** [o'] is [o] but for the [n] bytes from offset [off]. *)
Definition unchanged_outside (off n : nat) (o o' : object) : Prop :=
  List.length o' = List.length o
  /\ forall i, ~ in_range off n i -> nth_error o' i = nth_error o i.

(** The shape both structures share: [base], of [sb] bytes, at offset 0;
    then the pointer member [pf] at offset [offp]; [total] bytes in all. *)
Record prefix_layout (a : abi) (ms : list member) (pf : string)
    (sb offp total : nat) : Prop := {
  pl_offset_base : offsetof a ms "base" = Some 0;
  pl_sizeof_base : sizeof_member a ms "base" = Some sb;
  pl_offset_ptr : offsetof a ms pf = Some offp;
  pl_sizeof_ptr : sizeof_member a ms pf = Some (sizeof_ptr a);
  pl_sizeof : sizeof_struct a ms = Some total;
  pl_apart : sb <= offp;
  pl_fits : offp + sizeof_ptr a <= total
}.

(** * Properties *)

(** ** Evaluation on concrete targets *)

Example lp64_layout :
  offsetof lp64 struct_cpipeline_sqlite3_vtab "virtual_table_module_ptr" = Some 24
  /\ sizeof_struct lp64 struct_cpipeline_sqlite3_vtab = Some 32
  /\ offsetof lp64 struct_cpipeline_sqlite3_vtab_cursor "virtual_table_cursor_ptr" = Some 8
  /\ sizeof_struct lp64 struct_cpipeline_sqlite3_vtab_cursor = Some 16.
Proof. repeat split; reflexivity. Qed.

(** With a 20-byte, 4-aligned base and 8-aligned pointers the pointer member
    is pushed to offset 24: four bytes of padding belong to neither member. *)
Example padded_layout :
  let a := Abi 8 8 20 4 8 8 false in
  offsetof a struct_cpipeline_sqlite3_vtab "virtual_table_module_ptr" = Some 24
  /\ sizeof_struct a struct_cpipeline_sqlite3_vtab = Some 32.
Proof. split; reflexivity. Qed.

Example lp64_store_load :
  let o := repeat Byte.x00 32 in
  match VTab.set_virtual_table_module_ptr lp64 4660%Z o with
  | Some o' => VTab.get_virtual_table_module_ptr lp64 o' = Some 4660%Z
               /\ VTab.get_base lp64 o' = VTab.get_base lp64 o
  | None => False
  end.
Proof. vm_compute. split; reflexivity. Qed.

Example be_store_load :
  let o := repeat Byte.xff 8 in
  match Cursor.set_virtual_table_cursor_ptr ilp32_be 4660%Z o with
  | Some o' => o' = [Byte.xff; Byte.xff; Byte.xff; Byte.xff;
                     Byte.x00; Byte.x00; Byte.x12; Byte.x34]
               /\ Cursor.get_virtual_table_cursor_ptr ilp32_be o' = Some 4660%Z
  | None => False
  end.
Proof. vm_compute. split; reflexivity. Qed.

(** An object too small for the structure has no member to store to. *)
Example short_object :
  VTab.set_virtual_table_module_ptr lp64 1%Z (repeat Byte.x00 24) = None.
Proof. reflexivity. Qed.

(** ** Alignment *)

Lemma align_up_0 (a : nat) : align_up 0 a = 0.
Proof.
  unfold align_up. destruct a as [|a]; [reflexivity|].
  replace (0 + S a - 1) with a by lia.
  rewrite Nat.div_small by lia. reflexivity.
Qed.

Lemma align_up_ge (n a : nat) : 0 < a -> n <= align_up n a.
Proof.
  intros Ha. unfold align_up.
  pose proof (Nat.div_mod_eq (n + a - 1) a) as E.
  pose proof (Nat.mod_upper_bound (n + a - 1) a ltac:(lia)) as B.
  nia.
Qed.

Lemma align_up_multiple (n a : nat) : 0 < a -> align_up n a mod a = 0.
Proof.
  intros Ha. unfold align_up. apply Nat.Div0.mod_mul.
Qed.

Lemma align_up_aligned (n a : nat) : 0 < a -> n mod a = 0 -> align_up n a = n.
Proof.
  intros Ha Hn. unfold align_up.
  apply Nat.Div0.div_exact in Hn.
  rewrite Hn at 1.
  replace (a * (n / a) + a - 1) with ((a - 1) + (n / a) * a) by nia.
  rewrite Nat.div_add by lia.
  rewrite (Nat.div_small (a - 1) a) by lia. nia.
Qed.

Lemma type_ok_spec (size align : nat) :
  type_ok size align = true -> 0 < align /\ 0 < size /\ size mod align = 0.
Proof.
  unfold type_ok. rewrite !andb_true_iff, !Nat.ltb_lt, Nat.eqb_eq. tauto.
Qed.

Lemma abi_wf_ptr (a : abi) :
  abi_wf a = true -> 0 < alignof_ptr a /\ 0 < sizeof_ptr a.
Proof.
  unfold abi_wf. rewrite !andb_true_iff. intros [[H _] _].
  apply type_ok_spec in H. tauto.
Qed.

(** ** Bytes of an object *)

Lemma read_bytes_inside (off n : nat) (o : object) :
  off + n <= List.length o ->
  read_bytes off n o = Some (firstn n (skipn off o)).
Proof.
  intros H. unfold read_bytes.
  destruct (Nat.leb_spec (off + n) (List.length o)); [reflexivity | lia].
Qed.

Lemma read_bytes_length (off n : nat) (o : object) (bs : list byte) :
  read_bytes off n o = Some bs -> List.length bs = n.
Proof.
  unfold read_bytes.
  destruct (Nat.leb_spec (off + n) (List.length o)); [|discriminate].
  intros [= <-]. rewrite length_firstn, length_skipn. lia.
Qed.

Lemma write_bytes_inside (off : nat) (bs : list byte) (o : object) :
  off + List.length bs <= List.length o ->
  write_bytes off bs o
  = Some (firstn off o ++ bs ++ skipn (off + List.length bs) o).
Proof.
  intros H. unfold write_bytes.
  destruct (Nat.leb_spec (off + List.length bs) (List.length o)); [reflexivity | lia].
Qed.

Lemma write_bytes_bounds (off : nat) (bs : list byte) (o o' : object) :
  write_bytes off bs o = Some o' -> off + List.length bs <= List.length o.
Proof.
  unfold write_bytes.
  destruct (Nat.leb_spec (off + List.length bs) (List.length o)); [auto | discriminate].
Qed.

Lemma write_bytes_length (off : nat) (bs : list byte) (o o' : object) :
  write_bytes off bs o = Some o' -> List.length o' = List.length o.
Proof.
  intros H. pose proof (write_bytes_bounds _ _ _ _ H) as B.
  rewrite write_bytes_inside in H by assumption. injection H as <-.
  rewrite !length_app, length_firstn, length_skipn. lia.
Qed.

(** A write changes no byte outside the range it covers. *)
Lemma write_bytes_outside (off : nat) (bs : list byte) (o o' : object) (i : nat) :
  write_bytes off bs o = Some o' ->
  ~ in_range off (List.length bs) i ->
  nth_error o' i = nth_error o i.
Proof.
  intros H Hi. pose proof (write_bytes_bounds _ _ _ _ H) as B.
  rewrite write_bytes_inside in H by assumption. injection H as <-.
  unfold in_range in Hi.
  rewrite !nth_error_app, length_firstn, nth_error_firstn, nth_error_skipn.
  replace (Nat.min off (List.length o)) with off by lia.
  destruct (Nat.ltb_spec i off) as [Hlt | Hge]; [reflexivity|].
  destruct (Nat.ltb_spec (i - off) (List.length bs)) as [Hlt' | Hge']; [lia|].
  f_equal. lia.
Qed.

(** The bytes written are the bytes read back. *)
Lemma read_write_same (off : nat) (bs : list byte) (o o' : object) :
  write_bytes off bs o = Some o' ->
  read_bytes off (List.length bs) o' = Some bs.
Proof.
  intros H. pose proof (write_bytes_bounds _ _ _ _ H) as B.
  pose proof (write_bytes_length _ _ _ _ H) as L.
  rewrite read_bytes_inside by lia. f_equal.
  rewrite write_bytes_inside in H by assumption. injection H as <-.
  rewrite skipn_app, length_firstn.
  replace (Nat.min off (List.length o)) with off by lia.
  rewrite Nat.sub_diag. cbn [skipn].
  rewrite skipn_all2 by (rewrite length_firstn; lia). cbn [app].
  rewrite firstn_app, Nat.sub_diag. cbn [firstn].
  rewrite firstn_all, app_nil_r. reflexivity.
Qed.

(** A read depends on the bytes of its range only. *)
Lemma read_bytes_ext (off n : nat) (o1 o2 : object) :
  List.length o1 = List.length o2 ->
  (forall i, in_range off n i -> nth_error o1 i = nth_error o2 i) ->
  read_bytes off n o1 = read_bytes off n o2.
Proof.
  intros L H. unfold read_bytes. rewrite L.
  destruct (Nat.leb_spec (off + n) (List.length o2)); [|reflexivity].
  f_equal. apply nth_error_ext. intros i.
  rewrite !nth_error_firstn, !nth_error_skipn.
  destruct (Nat.ltb_spec i n); [|reflexivity].
  apply H. unfold in_range. lia.
Qed.

Lemma read_write_disjoint (off off' n : nat) (bs : list byte) (o o' : object) :
  write_bytes off bs o = Some o' ->
  disjoint_ranges off (List.length bs) off' n ->
  read_bytes off' n o' = read_bytes off' n o.
Proof.
  intros H D. apply read_bytes_ext.
  - eapply write_bytes_length; eassumption.
  - intros i Hi. eapply write_bytes_outside; [eassumption|].
    intros Hi'. exact (D i (conj Hi' Hi)).
Qed.

Lemma disjoint_ranges_before (off1 n1 off2 n2 : nat) :
  off1 + n1 <= off2 -> disjoint_ranges off1 n1 off2 n2.
Proof. unfold disjoint_ranges, in_range. intros H i. lia. Qed.

Lemma disjoint_ranges_sym (off1 n1 off2 n2 : nat) :
  disjoint_ranges off1 n1 off2 n2 -> disjoint_ranges off2 n2 off1 n1.
Proof. unfold disjoint_ranges. intros H i [H1 H2]. exact (H i (conj H2 H1)). Qed.

(** ** Pointer values as bytes *)

Lemma length_encode_ptr (a : abi) (p : Z) :
  List.length (encode_ptr a p) = sizeof_ptr a.
Proof.
  unfold encode_ptr. destruct (big_endian a).
  - rewrite length_rev. apply length_le_split.
  - apply length_le_split.
Qed.

Lemma decode_encode_ptr_mod (a : abi) (p : Z) :
  decode_ptr a (encode_ptr a p) = (p mod 2 ^ (Z.of_nat (sizeof_ptr a) * 8))%Z.
Proof.
  unfold decode_ptr, encode_ptr. destruct (big_endian a).
  - rewrite rev_involutive. apply le_combine_split.
  - apply le_combine_split.
Qed.

Lemma decode_encode_ptr (a : abi) (p : Z) :
  is_ptr a p = true -> decode_ptr a (encode_ptr a p) = p.
Proof.
  unfold is_ptr. rewrite andb_true_iff, Z.leb_le, Z.ltb_lt. intros H.
  rewrite decode_encode_ptr_mod. apply Z.mod_small. exact H.
Qed.

Lemma is_ptr_NULL (a : abi) : is_ptr a NULL = true.
Proof.
  unfold is_ptr, NULL. rewrite andb_true_iff, Z.leb_le, Z.ltb_lt.
  split; [lia|]. apply Z.pow_pos_nonneg; lia.
Qed.

(** ** Member access in a structure that starts with [base] *)

Section PrefixStruct.

Variables (a : abi) (ms : list member) (pf : string) (sb offp total : nat).
Hypothesis L : prefix_layout a ms pf sb offp total.

Variable o : object.
Hypothesis Ho : List.length o = total.

Let Hob := pl_offset_base _ _ _ _ _ _ L.
Let Hsb := pl_sizeof_base _ _ _ _ _ _ L.
Let Hop := pl_offset_ptr _ _ _ _ _ _ L.
Let Hsp := pl_sizeof_ptr _ _ _ _ _ _ L.
Let Hapart := pl_apart _ _ _ _ _ _ L.
Let Hfits := pl_fits _ _ _ _ _ _ L.

Lemma load_base_total : exists b, load_member a ms "base" o = Some b.
Proof.
  unfold load_member. rewrite Hob, Hsb.
  rewrite read_bytes_inside by lia. eauto.
Qed.

Lemma load_ptr_total : exists q, load_ptr a ms pf o = Some q.
Proof.
  unfold load_ptr, load_member. rewrite Hop, Hsp.
  rewrite read_bytes_inside by lia. cbn. eauto.
Qed.

Lemma store_ptr_spec (p : Z) :
  exists o', store_ptr a ms pf p o = Some o'
             /\ write_bytes offp (encode_ptr a p) o = Some o'.
Proof.
  unfold store_ptr, store_member. rewrite Hop, Hsp, length_encode_ptr, Nat.eqb_refl.
  rewrite write_bytes_inside by (rewrite length_encode_ptr; lia). eauto.
Qed.

Lemma store_base_spec (b : list byte) :
  List.length b = sb ->
  exists o', store_member a ms "base" b o = Some o'
             /\ write_bytes 0 b o = Some o'.
Proof.
  intros Hb. unfold store_member. rewrite Hob, Hsb, Hb, Nat.eqb_refl.
  rewrite write_bytes_inside by lia. eauto.
Qed.

(** Storing a pointer and loading it again: the value, cut to the width
    of a pointer. *)
Lemma load_store_ptr (p : Z) :
  exists o', store_ptr a ms pf p o = Some o'
             /\ load_ptr a ms pf o'
                = Some (p mod 2 ^ (Z.of_nat (sizeof_ptr a) * 8))%Z.
Proof.
  destruct (store_ptr_spec p) as (o' & Hs & Hw).
  exists o'. split; [exact Hs|].
  unfold load_ptr, load_member. rewrite Hop, Hsp.
  apply read_write_same in Hw. rewrite length_encode_ptr in Hw.
  rewrite Hw. cbn. rewrite decode_encode_ptr_mod. reflexivity.
Qed.

Lemma load_store_base (b : list byte) :
  List.length b = sb ->
  exists o', store_member a ms "base" b o = Some o'
             /\ load_member a ms "base" o' = Some b.
Proof.
  intros Hb. destruct (store_base_spec b Hb) as (o' & Hs & Hw).
  exists o'. split; [exact Hs|].
  unfold load_member. rewrite Hob, Hsb.
  apply read_write_same in Hw. rewrite Hb in Hw. exact Hw.
Qed.

(** Storing the pointer leaves [base] as it was. *)
Lemma store_ptr_keeps_base (p : Z) :
  exists o', store_ptr a ms pf p o = Some o'
             /\ load_member a ms "base" o' = load_member a ms "base" o.
Proof.
  destruct (store_ptr_spec p) as (o' & Hs & Hw).
  exists o'. split; [exact Hs|].
  unfold load_member. rewrite Hob, Hsb.
  eapply read_write_disjoint; [exact Hw|].
  apply disjoint_ranges_sym, disjoint_ranges_before. lia.
Qed.

(** Storing [base] leaves the pointer as it was. *)
Lemma store_base_keeps_ptr (b : list byte) :
  List.length b = sb ->
  exists o', store_member a ms "base" b o = Some o'
             /\ load_ptr a ms pf o' = load_ptr a ms pf o.
Proof.
  intros Hb. destruct (store_base_spec b Hb) as (o' & Hs & Hw).
  exists o'. split; [exact Hs|].
  unfold load_ptr, load_member. rewrite Hop, Hsp. f_equal.
  eapply read_write_disjoint; [exact Hw|].
  apply disjoint_ranges_before. lia.
Qed.

(** A store touches the bytes of its member and no other. *)
Lemma store_ptr_unchanged_outside (p : Z) :
  exists o', store_ptr a ms pf p o = Some o'
             /\ unchanged_outside offp (sizeof_ptr a) o o'.
Proof.
  destruct (store_ptr_spec p) as (o' & Hs & Hw).
  exists o'. split; [exact Hs|]. split.
  - eapply write_bytes_length; exact Hw.
  - intros i Hi. eapply write_bytes_outside; [exact Hw|].
    rewrite length_encode_ptr. exact Hi.
Qed.

Lemma store_base_unchanged_outside (b : list byte) :
  List.length b = sb ->
  exists o', store_member a ms "base" b o = Some o'
             /\ unchanged_outside 0 sb o o'.
Proof.
  intros Hb. destruct (store_base_spec b Hb) as (o' & Hs & Hw).
  exists o'. split; [exact Hs|]. split.
  - eapply write_bytes_length; exact Hw.
  - intros i Hi. eapply write_bytes_outside; [exact Hw|].
    rewrite Hb. exact Hi.
Qed.

(** The pointer loaded depends on no byte of [base]. *)
Lemma load_ptr_ignores_base (o2 : object) :
  List.length o2 = total ->
  (forall i, ~ in_range 0 sb i -> nth_error o i = nth_error o2 i) ->
  load_ptr a ms pf o = load_ptr a ms pf o2.
Proof.
  intros Ho2 H. unfold load_ptr, load_member. rewrite Hop, Hsp. f_equal.
  apply read_bytes_ext; [congruence|].
  intros i Hi. apply H. unfold in_range in *. lia.
Qed.

End PrefixStruct.

(** ** The layout of the two structures *)

Lemma vtab_layout (a : abi) :
  abi_wf a = true ->
  exists offp total,
    prefix_layout a VTab.members "virtual_table_module_ptr"
      (sizeof_sqlite3_vtab a) offp total.
Proof.
  intros W. destruct (abi_wf_ptr a W) as [Hal Hsz].
  eexists _, _. split.
  - unfold offsetof. cbn. rewrite align_up_0. reflexivity.
  - reflexivity.
  - unfold offsetof. cbn. rewrite align_up_0. reflexivity.
  - reflexivity.
  - unfold sizeof_struct. cbn. rewrite align_up_0. reflexivity.
  - cbn. apply align_up_ge. exact Hal.
  - cbn. apply align_up_ge.
    pose proof (Nat.le_max_r (alignof_sqlite3_vtab a) (Nat.max (alignof_ptr a) 1)).
    pose proof (Nat.le_max_r (alignof_ptr a) 1). lia.
Qed.

Lemma cursor_layout (a : abi) :
  abi_wf a = true ->
  exists offp total,
    prefix_layout a Cursor.members "virtual_table_cursor_ptr"
      (sizeof_sqlite3_vtab_cursor a) offp total.
Proof.
  intros W. destruct (abi_wf_ptr a W) as [Hal Hsz].
  eexists _, _. split.
  - unfold offsetof. cbn. rewrite align_up_0. reflexivity.
  - reflexivity.
  - unfold offsetof. cbn. rewrite align_up_0. reflexivity.
  - reflexivity.
  - unfold sizeof_struct. cbn. rewrite align_up_0. reflexivity.
  - cbn. apply align_up_ge. exact Hal.
  - cbn. apply align_up_ge.
    pose proof (Nat.le_max_r (alignof_sqlite3_vtab_cursor a) (Nat.max (alignof_ptr a) 1)).
    pose proof (Nat.le_max_r (alignof_ptr a) 1). lia.
Qed.

(** Where the pointer member is: just past [base], moved up to the
    alignment of a pointer. *)
Lemma ptr_member_offset (a : abi) (h : handle) :
  offsetof a (members_of h) (ptr_member h)
  = Some (align_up (sizeof_base a h) (alignof_ptr a)).
Proof.
  destruct h; unfold offsetof; cbn; rewrite align_up_0; reflexivity.
Qed.

Lemma ptr_member_aligned (a : abi) (h : handle) (offp : nat) :
  abi_wf a = true ->
  offsetof a (members_of h) (ptr_member h) = Some offp ->
  offp mod alignof_ptr a = 0.
Proof.
  intros W. rewrite ptr_member_offset. intros [= <-].
  apply align_up_multiple. apply (abi_wf_ptr a W).
Qed.

(** No padding between the members when [base] ends on a pointer
    boundary, as it does where [sqlite3_vtab] and [sqlite3_vtab_cursor]
    themselves hold pointers. *)
Lemma ptr_member_follows_base (a : abi) (h : handle) :
  abi_wf a = true ->
  sizeof_base a h mod alignof_ptr a = 0 ->
  offsetof a (members_of h) (ptr_member h) = Some (sizeof_base a h).
Proof.
  intros W Hb. rewrite ptr_member_offset. f_equal.
  apply align_up_aligned; [apply (abi_wf_ptr a W) | exact Hb].
Qed.

Lemma handle_layout (a : abi) (h : handle) :
  abi_wf a = true ->
  exists offp total,
    prefix_layout a (members_of h) (ptr_member h) (sizeof_base a h) offp total.
Proof.
  destruct h; [apply vtab_layout | apply cursor_layout].
Qed.

Lemma get_base_eq (a : abi) (h : handle) (o : object) :
  get_base a h o = load_member a (members_of h) "base" o.
Proof. destruct h; reflexivity. Qed.

Lemma set_base_eq (a : abi) (h : handle) (b : list byte) (o : object) :
  set_base a h b o = store_member a (members_of h) "base" b o.
Proof. destruct h; reflexivity. Qed.

Lemma get_ptr_eq (a : abi) (h : handle) (o : object) :
  get_ptr a h o = load_ptr a (members_of h) (ptr_member h) o.
Proof. destruct h; reflexivity. Qed.

Lemma set_ptr_eq (a : abi) (h : handle) (p : Z) (o : object) :
  set_ptr a h p o = store_ptr a (members_of h) (ptr_member h) p o.
Proof. destruct h; reflexivity. Qed.

(** An object of the structure's size, with the structure's layout. *)
Lemma instance_layout (a : abi) (h : handle) (o : object) :
  abi_wf a = true ->
  sizeof_handle a h = Some (List.length o) ->
  exists offp,
    prefix_layout a (members_of h) (ptr_member h) (sizeof_base a h) offp
      (List.length o).
Proof.
  intros W Hsz. destruct (handle_layout a h W) as (offp & total & L).
  exists offp. pose proof (pl_sizeof _ _ _ _ _ _ L) as E.
  unfold sizeof_handle in Hsz. rewrite Hsz in E. injection E as <-. exact L.
Qed.

Ltac by_member :=
  rewrite ?get_base_eq, ?set_base_eq, ?get_ptr_eq, ?set_ptr_eq.

Ltac with_layout a h o W Hsz L :=
  let offp := fresh "offp" in
  destruct (instance_layout a h o W Hsz) as (offp & L).

(** A store of the pointer member, in one: it succeeds, keeps [base] and
    is read back cut to the width of a pointer. *)
Lemma set_ptr_effect (a : abi) (h : handle) (o : object) (p : Z) :
  abi_wf a = true ->
  sizeof_handle a h = Some (List.length o) ->
  exists o', set_ptr a h p o = Some o'
             /\ get_base a h o' = get_base a h o
             /\ get_ptr a h o'
                = Some (p mod 2 ^ (Z.of_nat (sizeof_ptr a) * 8))%Z.
Proof.
  intros W Hsz. with_layout a h o W Hsz L.
  destruct (store_ptr_keeps_base a _ _ _ _ _ L o eq_refl p) as (o' & Hs & Hk).
  destruct (load_store_ptr a _ _ _ _ _ L o eq_refl p) as (o'' & Hs' & Hl).
  rewrite Hs in Hs'. injection Hs' as <-.
  exists o'. by_member. auto.
Qed.

(** ** The structures of the header *)

(** C1.  In [cpipeline_sqlite3_vtab] the member [base], of type
    [sqlite3_vtab], is at byte offset 0 on every target: the address of the
    structure is the address of its [base], and converting a pointer to the
    structure into a pointer to [sqlite3_vtab] and back gives the pointer
    again. *)
Theorem vtab_base_at_offset_0 (a : abi) (p : Z) :
  member_type struct_cpipeline_sqlite3_vtab "base" = Some (Tnamed "sqlite3_vtab")
  /\ offsetof a struct_cpipeline_sqlite3_vtab "base" = Some 0
  /\ VTab.to_sqlite3_vtab a p = Some p
  /\ VTab.of_sqlite3_vtab a p = Some p.
Proof.
  assert (E : offsetof a struct_cpipeline_sqlite3_vtab "base" = Some 0).
  { unfold offsetof. cbn. rewrite align_up_0. reflexivity. }
  unfold VTab.to_sqlite3_vtab, VTab.of_sqlite3_vtab, member_ptr, container_of,
    VTab.members.
  rewrite E. cbn [option_map Z.of_nat].
  rewrite Z.add_0_r, Z.sub_0_r. repeat split; reflexivity.
Qed.

(** C2.  In [cpipeline_sqlite3_vtab_cursor] the member [base], of type
    [sqlite3_vtab_cursor], is at byte offset 0 on every target, and
    converting a pointer to the structure into a pointer to
    [sqlite3_vtab_cursor] and back gives the pointer again. *)
Theorem cursor_base_at_offset_0 (a : abi) (p : Z) :
  member_type struct_cpipeline_sqlite3_vtab_cursor "base"
  = Some (Tnamed "sqlite3_vtab_cursor")
  /\ offsetof a struct_cpipeline_sqlite3_vtab_cursor "base" = Some 0
  /\ Cursor.to_sqlite3_vtab_cursor a p = Some p
  /\ Cursor.of_sqlite3_vtab_cursor a p = Some p.
Proof.
  assert (E : offsetof a struct_cpipeline_sqlite3_vtab_cursor "base" = Some 0).
  { unfold offsetof. cbn. rewrite align_up_0. reflexivity. }
  unfold Cursor.to_sqlite3_vtab_cursor, Cursor.of_sqlite3_vtab_cursor,
    member_ptr, container_of, Cursor.members.
  rewrite E. cbn [option_map Z.of_nat].
  rewrite Z.add_0_r, Z.sub_0_r. repeat split; reflexivity.
Qed.

(** C4.  On a well-formed target either structure is at least as large as
    its [base] and a pointer together, and the bytes of [base] and the bytes
    of the pointer member are apart: no offset lies in both ranges, and both
    ranges lie inside the structure. *)
Theorem sizeof_and_no_overlap (a : abi) (h : handle) :
  abi_wf a = true ->
  exists total offp,
    sizeof_handle a h = Some total
    /\ offsetof a (members_of h) "base" = Some 0
    /\ offsetof a (members_of h) (ptr_member h) = Some offp
    /\ sizeof_base a h + sizeof_ptr a <= total
    /\ disjoint_ranges 0 (sizeof_base a h) offp (sizeof_ptr a)
    /\ sizeof_base a h <= total
    /\ offp + sizeof_ptr a <= total.
Proof.
  intros W. destruct (handle_layout a h W) as (offp & total & L).
  destruct L as [Hob Hsb Hop Hsp Hsz Hapart Hfits].
  exists total, offp. repeat split; try assumption; try lia.
  apply disjoint_ranges_before. lia.
Qed.

Lemma sizeof_and_no_overlap_lp64 :
  exists total offp,
    sizeof_handle lp64 VTabHandle = Some total
    /\ offsetof lp64 (members_of VTabHandle) "base" = Some 0
    /\ offsetof lp64 (members_of VTabHandle) (ptr_member VTabHandle) = Some offp
    /\ sizeof_base lp64 VTabHandle + sizeof_ptr lp64 <= total
    /\ disjoint_ranges 0 (sizeof_base lp64 VTabHandle) offp (sizeof_ptr lp64)
    /\ sizeof_base lp64 VTabHandle <= total
    /\ offp + sizeof_ptr lp64 <= total.
Proof. apply (sizeof_and_no_overlap lp64 VTabHandle). reflexivity. Defined.

(** C6.  The header defines two record types and no more:
    [cpipeline_sqlite3_vtab] with members [base : sqlite3_vtab] and
    [virtual_table_module_ptr : void *], and [cpipeline_sqlite3_vtab_cursor]
    with members [base : sqlite3_vtab_cursor] and
    [virtual_table_cursor_ptr : void *], in that order; it declares no
    function. *)
Theorem header_is_two_structures :
  struct_defs cpipeline_vtab_h
  = [ ("cpipeline_sqlite3_vtab",
       [ Member (Tnamed "sqlite3_vtab") "base";
         Member (Tpointer Tvoid) "virtual_table_module_ptr" ]);
      ("cpipeline_sqlite3_vtab_cursor",
       [ Member (Tnamed "sqlite3_vtab_cursor") "base";
         Member (Tpointer Tvoid) "virtual_table_cursor_ptr" ]) ]
  /\ functions cpipeline_vtab_h = [].
Proof. split; reflexivity. Qed.

(** ** Storing and loading members *)

(** C3.  In an instance of either structure, storing a non-null pointer
    value into the pointer member succeeds, and loading the member then
    gives that value, bit for bit. *)
Theorem store_load_nonnull (a : abi) (h : handle) (o : object) (p : Z) :
  abi_wf a = true ->
  sizeof_handle a h = Some (List.length o) ->
  is_ptr a p = true ->
  p <> NULL ->
  exists o', set_ptr a h p o = Some o'
             /\ get_ptr a h o' = Some p
             /\ load_member a (members_of h) (ptr_member h) o'
                = Some (encode_ptr a p).
Proof.
  intros W Hsz Hp _. with_layout a h o W Hsz L.
  destruct (store_ptr_spec a _ _ _ _ _ L o eq_refl p) as (o' & Hs & Hw).
  destruct (load_store_ptr a _ _ _ _ _ L o eq_refl p) as (o'' & Hs' & Hl).
  rewrite Hs in Hs'. injection Hs' as <-.
  exists o'. by_member. split; [exact Hs|]. split.
  - rewrite Hl. f_equal. rewrite <- decode_encode_ptr_mod.
    apply decode_encode_ptr. exact Hp.
  - unfold load_member.
    rewrite (pl_offset_ptr _ _ _ _ _ _ L), (pl_sizeof_ptr _ _ _ _ _ _ L).
    apply read_write_same in Hw. rewrite length_encode_ptr in Hw. exact Hw.
Qed.

Lemma store_load_nonnull_lp64 :
  exists o', set_ptr lp64 VTabHandle 4660%Z (repeat Byte.xff 32) = Some o'
             /\ get_ptr lp64 VTabHandle o' = Some 4660%Z
             /\ load_member lp64 (members_of VTabHandle) (ptr_member VTabHandle) o'
                = Some (encode_ptr lp64 4660%Z).
Proof.
  apply (store_load_nonnull lp64 VTabHandle (repeat Byte.xff 32) 4660%Z).
  - reflexivity.
  - reflexivity.
  - reflexivity.
  - discriminate.
Defined.

(** C8.  The same holds of [NULL]: storing it into the pointer member of
    either structure succeeds, and loading the member then gives [NULL]. *)
Theorem store_load_null (a : abi) (h : handle) (o : object) :
  abi_wf a = true ->
  sizeof_handle a h = Some (List.length o) ->
  exists o', set_ptr a h NULL o = Some o' /\ get_ptr a h o' = Some NULL.
Proof.
  intros W Hsz. with_layout a h o W Hsz L.
  destruct (load_store_ptr a _ _ _ _ _ L o eq_refl NULL) as (o' & Hs & Hl).
  exists o'. by_member. split; [exact Hs|].
  rewrite Hl, <- decode_encode_ptr_mod, decode_encode_ptr by apply is_ptr_NULL.
  reflexivity.
Qed.

Lemma store_load_null_lp64 :
  exists o', set_ptr lp64 VTabCursorHandle NULL (repeat Byte.xff 16) = Some o'
             /\ get_ptr lp64 VTabCursorHandle o' = Some NULL.
Proof.
  apply (store_load_null lp64 VTabCursorHandle (repeat Byte.xff 16)).
  - reflexivity.
  - reflexivity.
Defined.

(** C5.  In an instance of either structure, a store to the pointer member
    succeeds and leaves [base] as it was, and a store to [base] succeeds
    and leaves the pointer member as it was. *)
Theorem stores_frame (a : abi) (h : handle) (o : object) (p : Z)
    (b : list byte) :
  abi_wf a = true ->
  sizeof_handle a h = Some (List.length o) ->
  List.length b = sizeof_base a h ->
  (exists o', set_ptr a h p o = Some o' /\ get_base a h o' = get_base a h o)
  /\ (exists o', set_base a h b o = Some o' /\ get_ptr a h o' = get_ptr a h o).
Proof.
  intros W Hsz Hb. split; with_layout a h o W Hsz L.
  - destruct (store_ptr_keeps_base a _ _ _ _ _ L o eq_refl p) as (o' & Hs & Hk).
    exists o'. by_member. auto.
  - destruct (store_base_keeps_ptr a _ _ _ _ _ L o eq_refl b Hb) as (o' & Hs & Hk).
    exists o'. by_member. auto.
Qed.

Lemma stores_frame_lp64 :
  let o := repeat Byte.x01 32 in
  (exists o', set_ptr lp64 VTabHandle 4660%Z o = Some o'
              /\ get_base lp64 VTabHandle o' = get_base lp64 VTabHandle o)
  /\ (exists o', set_base lp64 VTabHandle (repeat Byte.x02 24) o = Some o'
                 /\ get_ptr lp64 VTabHandle o' = get_ptr lp64 VTabHandle o).
Proof.
  apply (stores_frame lp64 VTabHandle (repeat Byte.x01 32) 4660%Z
           (repeat Byte.x02 24)).
  - reflexivity.
  - reflexivity.
  - reflexivity.
Defined.

(** C7.  Member access on an instance of either structure cannot fail:
    both loads give a value; a store of any pointer value whatever, [NULL]
    or not, and a store of any [base] value give an object; and the object
    a store gives has the size of the old one and differs from it in the
    bytes of the stored member only. *)
Theorem member_access_total (a : abi) (h : handle) (o : object) (p : Z)
    (b : list byte) :
  abi_wf a = true ->
  sizeof_handle a h = Some (List.length o) ->
  List.length b = sizeof_base a h ->
  exists offp,
    offsetof a (members_of h) (ptr_member h) = Some offp
    /\ (exists v, get_base a h o = Some v)
    /\ (exists q, get_ptr a h o = Some q)
    /\ (exists o', set_ptr a h p o = Some o'
                   /\ unchanged_outside offp (sizeof_ptr a) o o')
    /\ (exists o', set_base a h b o = Some o'
                   /\ unchanged_outside 0 (sizeof_base a h) o o').
Proof.
  intros W Hsz Hb. destruct (instance_layout a h o W Hsz) as (offp & L).
  exists offp. by_member. split; [exact (pl_offset_ptr _ _ _ _ _ _ L)|].
  split; [exact (load_base_total a _ _ _ _ _ L o eq_refl)|].
  split; [exact (load_ptr_total a _ _ _ _ _ L o eq_refl)|].
  split.
  - destruct (store_ptr_unchanged_outside a _ _ _ _ _ L o eq_refl p)
      as (o' & Hs & Hu).
    exists o'. by_member. auto.
  - destruct (store_base_unchanged_outside a _ _ _ _ _ L o eq_refl b Hb)
      as (o' & Hs & Hu).
    exists o'. by_member. auto.
Qed.

Lemma member_access_total_lp64 :
  let o := repeat Byte.x01 32 in
  exists offp,
    offsetof lp64 (members_of VTabHandle) (ptr_member VTabHandle) = Some offp
    /\ (exists v, get_base lp64 VTabHandle o = Some v)
    /\ (exists q, get_ptr lp64 VTabHandle o = Some q)
    /\ (exists o', set_ptr lp64 VTabHandle NULL o = Some o'
                   /\ unchanged_outside offp (sizeof_ptr lp64) o o')
    /\ (exists o', set_base lp64 VTabHandle (repeat Byte.x00 24) o = Some o'
                   /\ unchanged_outside 0 (sizeof_base lp64 VTabHandle) o o').
Proof.
  apply (member_access_total lp64 VTabHandle (repeat Byte.x01 32) NULL
           (repeat Byte.x00 24)).
  - reflexivity.
  - reflexivity.
  - reflexivity.
Defined.

(** C10.  Two instances of either structure that differ in bytes of
    [base] only hold the same pointer: the load of the pointer member gives
    the same value on both. *)
Theorem ptr_independent_of_base (a : abi) (h : handle) (o1 o2 : object) :
  abi_wf a = true ->
  sizeof_handle a h = Some (List.length o1) ->
  List.length o2 = List.length o1 ->
  (forall i, ~ in_range 0 (sizeof_base a h) i -> nth_error o1 i = nth_error o2 i) ->
  exists q, get_ptr a h o1 = Some q /\ get_ptr a h o2 = Some q.
Proof.
  intros W Hsz Hlen Hsame. with_layout a h o1 W Hsz L.
  destruct (load_ptr_total a _ _ _ _ _ L o1 eq_refl) as (q & Hq).
  exists q. by_member. split; [exact Hq|].
  rewrite <- Hq. symmetry.
  exact (load_ptr_ignores_base a _ _ _ _ _ L o1 eq_refl o2 Hlen Hsame).
Qed.

Lemma ptr_independent_of_base_lp64 :
  exists q,
    get_ptr lp64 VTabCursorHandle (Byte.x00 :: repeat Byte.x07 15) = Some q
    /\ get_ptr lp64 VTabCursorHandle (Byte.xff :: repeat Byte.x07 15) = Some q.
Proof.
  apply (ptr_independent_of_base lp64 VTabCursorHandle
           (Byte.x00 :: repeat Byte.x07 15) (Byte.xff :: repeat Byte.x07 15)).
  - reflexivity.
  - reflexivity.
  - reflexivity.
  - intros i Hi. destruct i as [|i].
    + exfalso. apply Hi. unfold in_range. simpl. lia.
    + reflexivity.
Defined.

(** ** The structures as values *)

(** The value an object holds is decided by what its two members load. *)
Lemma vtab_read_members (a : abi) (o1 o2 : object) :
  VTab.get_base a o1 = VTab.get_base a o2 ->
  VTab.get_virtual_table_module_ptr a o1 = VTab.get_virtual_table_module_ptr a o2 ->
  VTab.read a o1 = VTab.read a o2.
Proof. unfold VTab.read. intros -> ->. reflexivity. Qed.

Lemma cursor_read_members (a : abi) (o1 o2 : object) :
  Cursor.get_base a o1 = Cursor.get_base a o2 ->
  Cursor.get_virtual_table_cursor_ptr a o1 = Cursor.get_virtual_table_cursor_ptr a o2 ->
  Cursor.read a o1 = Cursor.read a o2.
Proof. unfold Cursor.read. intros -> ->. reflexivity. Qed.

(** Padding is no part of the value: where the layout leaves bytes between
    the members, objects that differ there hold the same value. *)
Example padding_is_not_state :
  let a := Abi 8 8 20 4 8 8 false in
  let o1 := repeat Byte.x00 32 in
  let o2 := repeat Byte.x00 20 ++ [Byte.xff] ++ repeat Byte.x00 11 in
  o1 <> o2 /\ VTab.read a o1 = VTab.read a o2.
Proof. split; [discriminate | vm_compute; reflexivity]. Qed.

(** A store of the pointer member, seen on values: [base] is kept and the
    pointer is replaced. *)
Lemma vtab_read_set_ptr (a : abi) (o : object) (p : Z)
    (r : VTab.cpipeline_sqlite3_vtab) :
  abi_wf a = true ->
  sizeof_handle a VTabHandle = Some (List.length o) ->
  is_ptr a p = true ->
  VTab.read a o = Some r ->
  exists o',
    VTab.set_virtual_table_module_ptr a p o = Some o'
    /\ VTab.read a o'
       = Some {| VTab.base := VTab.base r; VTab.virtual_table_module_ptr := p |}.
Proof.
  intros W Hsz Hp Hr.
  destruct (set_ptr_effect a VTabHandle o p W Hsz) as (o' & Hs & Hb & Hl).
  exists o'. split; [exact Hs|].
  cbn [set_ptr get_base get_ptr] in *.
  unfold VTab.read in *. rewrite Hb, Hl.
  destruct (VTab.get_base a o) as [v|]; [|discriminate].
  destruct (VTab.get_virtual_table_module_ptr a o); [|discriminate].
  injection Hr as <-. cbn.
  rewrite <- decode_encode_ptr_mod, decode_encode_ptr by exact Hp.
  reflexivity.
Qed.

Lemma cursor_read_set_ptr (a : abi) (o : object) (p : Z)
    (r : Cursor.cpipeline_sqlite3_vtab_cursor) :
  abi_wf a = true ->
  sizeof_handle a VTabCursorHandle = Some (List.length o) ->
  is_ptr a p = true ->
  Cursor.read a o = Some r ->
  exists o',
    Cursor.set_virtual_table_cursor_ptr a p o = Some o'
    /\ Cursor.read a o'
       = Some {| Cursor.base := Cursor.base r; Cursor.virtual_table_cursor_ptr := p |}.
Proof.
  intros W Hsz Hp Hr.
  destruct (set_ptr_effect a VTabCursorHandle o p W Hsz) as (o' & Hs & Hb & Hl).
  exists o'. split; [exact Hs|].
  cbn [set_ptr get_base get_ptr] in *.
  unfold Cursor.read in *. rewrite Hb, Hl.
  destruct (Cursor.get_base a o) as [v|]; [|discriminate].
  destruct (Cursor.get_virtual_table_cursor_ptr a o); [|discriminate].
  injection Hr as <-. cbn.
  rewrite <- decode_encode_ptr_mod, decode_encode_ptr by exact Hp.
  reflexivity.
Qed.

(** * Further properties of member access *)

(** ** Writes, byte by byte *)

Lemma write_bytes_nth (off : nat) (bs : list byte) (o o' : object) (i : nat) :
  write_bytes off bs o = Some o' ->
  nth_error o' i
  = if (off <=? i) && (i <? off + List.length bs)
    then nth_error bs (i - off)
    else nth_error o i.
Proof.
  intros H. pose proof (write_bytes_bounds _ _ _ _ H) as B.
  rewrite write_bytes_inside in H by assumption. injection H as <-.
  rewrite !nth_error_app, length_firstn, nth_error_firstn, nth_error_skipn.
  replace (Nat.min off (List.length o)) with off by lia.
  destruct (Nat.leb_spec off i), (Nat.ltb_spec i (off + List.length bs)),
    (Nat.ltb_spec i off), (Nat.ltb_spec (i - off) (List.length bs));
    cbn [andb]; try reflexivity; try lia.
  f_equal. lia.
Qed.

Lemma write_bytes_some (off : nat) (bs : list byte) (o : object) :
  off + List.length bs <= List.length o ->
  exists o', write_bytes off bs o = Some o'.
Proof. intros H. rewrite write_bytes_inside by exact H. eauto. Qed.

(** Of two writes to the same range the later one stays. *)
Lemma write_write_same (off : nat) (bs1 bs2 : list byte) (o o1 : object) :
  write_bytes off bs1 o = Some o1 ->
  List.length bs2 = List.length bs1 ->
  write_bytes off bs2 o1 = write_bytes off bs2 o.
Proof.
  intros H1 Hlen.
  pose proof (write_bytes_bounds _ _ _ _ H1) as B.
  pose proof (write_bytes_length _ _ _ _ H1) as E.
  destruct (write_bytes_some off bs2 o1 ltac:(lia)) as (x & Hx).
  destruct (write_bytes_some off bs2 o ltac:(lia)) as (y & Hy).
  rewrite Hx, Hy. f_equal. apply nth_error_ext. intros i.
  rewrite (write_bytes_nth _ _ _ _ i Hx), (write_bytes_nth _ _ _ _ i Hy),
    (write_bytes_nth _ _ _ _ i H1), Hlen.
  destruct ((off <=? i) && (i <? off + List.length bs1)); reflexivity.
Qed.

(** Writes to ranges that are apart can be done in either order. *)
Lemma write_write_commute (off1 off2 : nat) (bs1 bs2 : list byte)
    (o o1 o2 : object) :
  off1 + List.length bs1 <= off2 ->
  write_bytes off1 bs1 o = Some o1 ->
  write_bytes off2 bs2 o = Some o2 ->
  exists o12, write_bytes off2 bs2 o1 = Some o12
              /\ write_bytes off1 bs1 o2 = Some o12.
Proof.
  intros Hap H1 H2.
  pose proof (write_bytes_bounds _ _ _ _ H1) as B1.
  pose proof (write_bytes_bounds _ _ _ _ H2) as B2.
  pose proof (write_bytes_length _ _ _ _ H1) as E1.
  pose proof (write_bytes_length _ _ _ _ H2) as E2.
  destruct (write_bytes_some off2 bs2 o1 ltac:(lia)) as (x & Hx).
  destruct (write_bytes_some off1 bs1 o2 ltac:(lia)) as (y & Hy).
  exists x. split; [exact Hx|]. rewrite Hy. f_equal.
  apply nth_error_ext. intros i.
  rewrite (write_bytes_nth _ _ _ _ i Hx), (write_bytes_nth _ _ _ _ i Hy),
    (write_bytes_nth _ _ _ _ i H1), (write_bytes_nth _ _ _ _ i H2).
  destruct (Nat.leb_spec off1 i), (Nat.ltb_spec i (off1 + List.length bs1)),
    (Nat.leb_spec off2 i), (Nat.ltb_spec i (off2 + List.length bs2));
    cbn [andb]; try reflexivity; lia.
Qed.

(** Writing back what was read changes nothing. *)
Lemma write_read_id (off n : nat) (o : object) (bs : list byte) :
  read_bytes off n o = Some bs -> write_bytes off bs o = Some o.
Proof.
  intros H. pose proof (read_bytes_length _ _ _ _ H) as E.
  unfold read_bytes in H.
  destruct (Nat.leb_spec (off + n) (List.length o)) as [B|]; [|discriminate].
  injection H as <-.
  rewrite write_bytes_inside by lia. f_equal.
  rewrite E, Nat.add_comm, <- skipn_skipn, firstn_skipn, firstn_skipn.
  reflexivity.
Qed.

(** The bytes of a pointer, decoded and encoded, are the bytes again. *)
Lemma encode_decode_ptr (a : abi) (bs : list byte) :
  List.length bs = sizeof_ptr a -> encode_ptr a (decode_ptr a bs) = bs.
Proof.
  intros H. unfold encode_ptr, decode_ptr. destruct (big_endian a).
  - rewrite split_le_combine' by (rewrite length_rev; exact H).
    apply rev_involutive.
  - apply split_le_combine'. exact H.
Qed.

Lemma is_ptr_decode_ptr (a : abi) (bs : list byte) :
  List.length bs = sizeof_ptr a -> is_ptr a (decode_ptr a bs) = true.
Proof.
  intros H. unfold is_ptr, decode_ptr.
  rewrite andb_true_iff, Z.leb_le, Z.ltb_lt.
  pose proof (le_combine_bound (if big_endian a then rev bs else bs)) as B.
  replace (List.length (if big_endian a then rev bs else bs))
    with (sizeof_ptr a) in B
    by (destruct (big_endian a); rewrite ?length_rev; congruence).
  rewrite Z.mul_comm. exact B.
Qed.

(** ** Member access as reads and writes of bytes *)

Lemma abi_wf_base (a : abi) (h : handle) :
  abi_wf a = true ->
  0 < alignof_base a h /\ 0 < sizeof_base a h
  /\ sizeof_base a h mod alignof_base a h = 0.
Proof.
  unfold abi_wf. rewrite !andb_true_iff. intros [[_ Hv] Hc].
  destruct h; cbn; apply type_ok_spec; assumption.
Qed.

Lemma abi_wf_ptr_size (a : abi) :
  abi_wf a = true -> sizeof_ptr a mod alignof_ptr a = 0.
Proof.
  unfold abi_wf. rewrite !andb_true_iff. intros [[H _] _].
  apply type_ok_spec in H. tauto.
Qed.

Lemma alignof_handle (a : abi) (h : handle) :
  alignof_struct a (members_of h)
  = Some (Nat.max (alignof_base a h) (Nat.max (alignof_ptr a) 1)).
Proof. destruct h; reflexivity. Qed.

Lemma sizeof_handle_eq (a : abi) (h : handle) :
  sizeof_handle a h
  = Some (align_up (align_up (sizeof_base a h) (alignof_ptr a) + sizeof_ptr a)
            (Nat.max (alignof_base a h) (Nat.max (alignof_ptr a) 1))).
Proof.
  destruct h; unfold sizeof_handle, sizeof_struct; cbn;
    rewrite align_up_0; reflexivity.
Qed.

(** Under the layout of an instance, the four accesses are reads and
    writes at the two offsets. *)
Lemma access_as_bytes (a : abi) (h : handle) (o : object) :
  abi_wf a = true ->
  sizeof_handle a h = Some (List.length o) ->
  exists offp,
    sizeof_base a h <= offp
    /\ offp + sizeof_ptr a <= List.length o
    /\ (forall x, get_base a h x = read_bytes 0 (sizeof_base a h) x)
    /\ (forall x, get_ptr a h x
                  = option_map (decode_ptr a) (read_bytes offp (sizeof_ptr a) x))
    /\ (forall p x, set_ptr a h p x = write_bytes offp (encode_ptr a p) x)
    /\ (forall b x, List.length b = sizeof_base a h ->
                    set_base a h b x = write_bytes 0 b x).
Proof.
  intros W Hsz. destruct (instance_layout a h o W Hsz) as (offp & L).
  destruct L as [Hob Hsb Hop Hsp _ Hapart Hfits].
  exists offp. split; [exact Hapart|]. split; [exact Hfits|].
  repeat split; intros; by_member.
  - unfold load_member. rewrite Hob, Hsb. reflexivity.
  - unfold load_ptr, load_member. rewrite Hop, Hsp. reflexivity.
  - unfold store_ptr, store_member.
    rewrite Hop, Hsp, length_encode_ptr, Nat.eqb_refl. reflexivity.
  - unfold store_member. rewrite Hob, Hsb.
    replace (List.length b) with (sizeof_base a h) by congruence.
    rewrite Nat.eqb_refl. reflexivity.
Qed.

(** ** Round trips, order of stores, alignment *)

(** X1.  In an instance of either structure, storing a value of the type of
    [base] into [base] succeeds, and loading [base] then gives that value. *)
Theorem base_store_load (a : abi) (h : handle) (o : object) (b : list byte) :
  abi_wf a = true ->
  sizeof_handle a h = Some (List.length o) ->
  List.length b = sizeof_base a h ->
  exists o', set_base a h b o = Some o' /\ get_base a h o' = Some b.
Proof.
  intros W Hsz Hb.
  destruct (access_as_bytes a h o W Hsz) as (offp & Hap & Hfit & Gb & Gp & Sp & Sb).
  destruct (write_bytes_some 0 b o ltac:(lia)) as (o' & Hw).
  exists o'. rewrite Sb by exact Hb. split; [exact Hw|].
  rewrite Gb, <- Hb. exact (read_write_same _ _ _ _ Hw).
Qed.

Lemma base_store_load_lp64 :
  exists o', set_base lp64 VTabHandle (repeat Byte.x2a 24) (repeat Byte.x00 32)
             = Some o'
             /\ get_base lp64 VTabHandle o' = Some (repeat Byte.x2a 24).
Proof.
  apply (base_store_load lp64 VTabHandle (repeat Byte.x00 32) (repeat Byte.x2a 24)).
  - reflexivity.
  - reflexivity.
  - reflexivity.
Defined.

(** X2.  On a well-formed target the pointer member of either structure
    sits at a multiple of the alignment of a pointer, the structure is as
    aligned as its more aligned member, and its size is a multiple of that
    alignment. *)
Theorem members_aligned (a : abi) (h : handle) :
  abi_wf a = true ->
  exists offp total al,
    offsetof a (members_of h) (ptr_member h) = Some offp
    /\ sizeof_handle a h = Some total
    /\ alignof_struct a (members_of h) = Some al
    /\ offp mod alignof_ptr a = 0
    /\ al = Nat.max (alignof_base a h) (alignof_ptr a)
    /\ total mod al = 0.
Proof.
  intros W. destruct (abi_wf_ptr a W) as [Hal _].
  do 3 eexists. split; [apply ptr_member_offset|].
  split; [apply sizeof_handle_eq|]. split; [apply alignof_handle|].
  split; [apply align_up_multiple; exact Hal|].
  split; [lia|]. apply align_up_multiple. lia.
Qed.

Lemma members_aligned_lp64 :
  exists offp total al,
    offsetof lp64 (members_of VTabHandle) (ptr_member VTabHandle) = Some offp
    /\ sizeof_handle lp64 VTabHandle = Some total
    /\ alignof_struct lp64 (members_of VTabHandle) = Some al
    /\ offp mod alignof_ptr lp64 = 0
    /\ al = Nat.max (alignof_base lp64 VTabHandle) (alignof_ptr lp64)
    /\ total mod al = 0.
Proof. apply (members_aligned lp64 VTabHandle). reflexivity. Defined.

(** X3.  Where [base] is aligned as a pointer is, as on the targets where
    SQLite's structures hold pointers, there is no padding: the pointer
    member starts where [base] ends and the structure is exactly as large
    as [base] and a pointer together. *)
Theorem layout_without_padding (a : abi) (h : handle) :
  abi_wf a = true ->
  alignof_base a h = alignof_ptr a ->
  offsetof a (members_of h) (ptr_member h) = Some (sizeof_base a h)
  /\ sizeof_handle a h = Some (sizeof_base a h + sizeof_ptr a).
Proof.
  intros W Hal.
  destruct (abi_wf_base a h W) as (Hab & _ & Hb).
  pose proof (abi_wf_ptr_size a W) as Hp. rewrite Hal in *.
  assert (E : align_up (sizeof_base a h) (alignof_ptr a) = sizeof_base a h)
    by (apply align_up_aligned; assumption).
  split.
  - rewrite ptr_member_offset, E. reflexivity.
  - rewrite sizeof_handle_eq, Hal, E. f_equal.
    replace (Nat.max (alignof_ptr a) (Nat.max (alignof_ptr a) 1))
      with (alignof_ptr a) by lia.
    apply align_up_aligned; [exact Hab|].
    rewrite Nat.Div0.add_mod, Hb, Hp. cbn. apply Nat.Div0.mod_0_l.
Qed.

Lemma layout_without_padding_lp64 :
  offsetof lp64 (members_of VTabCursorHandle) (ptr_member VTabCursorHandle)
  = Some (sizeof_base lp64 VTabCursorHandle)
  /\ sizeof_handle lp64 VTabCursorHandle
     = Some (sizeof_base lp64 VTabCursorHandle + sizeof_ptr lp64).
Proof.
  apply (layout_without_padding lp64 VTabCursorHandle).
  - reflexivity.
  - reflexivity.
Defined.

(** X4.  Of two stores to the pointer member of an instance the later one
    stays: the object is the one a single store of the second value gives,
    and the member then loads as the second value. *)
Theorem last_store_wins (a : abi) (h : handle) (o : object) (p1 p2 : Z) :
  abi_wf a = true ->
  sizeof_handle a h = Some (List.length o) ->
  is_ptr a p2 = true ->
  exists o1 o2,
    set_ptr a h p1 o = Some o1
    /\ set_ptr a h p2 o1 = Some o2
    /\ set_ptr a h p2 o = Some o2
    /\ get_ptr a h o2 = Some p2.
Proof.
  intros W Hsz Hp2.
  destruct (access_as_bytes a h o W Hsz) as (offp & Hap & Hfit & Gb & Gp & Sp & Sb).
  destruct (write_bytes_some offp (encode_ptr a p1) o) as (o1 & H1);
    [rewrite length_encode_ptr; lia|].
  destruct (write_bytes_some offp (encode_ptr a p2) o) as (o2 & H2);
    [rewrite length_encode_ptr; lia|].
  exists o1, o2. rewrite !Sp, Gp.
  split; [exact H1|]. split; [|split; [exact H2|]].
  - rewrite <- H2. apply (write_write_same _ _ _ _ _ H1).
    rewrite !length_encode_ptr. reflexivity.
  - apply read_write_same in H2. rewrite length_encode_ptr in H2.
    rewrite H2. cbn. rewrite decode_encode_ptr by exact Hp2. reflexivity.
Qed.

Lemma last_store_wins_lp64 :
  exists o1 o2,
    set_ptr lp64 VTabHandle 4660%Z (repeat Byte.x00 32) = Some o1
    /\ set_ptr lp64 VTabHandle 22136%Z o1 = Some o2
    /\ set_ptr lp64 VTabHandle 22136%Z (repeat Byte.x00 32) = Some o2
    /\ get_ptr lp64 VTabHandle o2 = Some 22136%Z.
Proof.
  apply (last_store_wins lp64 VTabHandle (repeat Byte.x00 32) 4660%Z 22136%Z).
  - reflexivity.
  - reflexivity.
  - reflexivity.
Defined.

(** X5.  On an instance of either structure a store to [base] and a store
    to the pointer member give the same object in either order. *)
Theorem stores_commute (a : abi) (h : handle) (o : object) (p : Z)
    (b : list byte) :
  abi_wf a = true ->
  sizeof_handle a h = Some (List.length o) ->
  List.length b = sizeof_base a h ->
  exists ob op obp,
    set_base a h b o = Some ob
    /\ set_ptr a h p o = Some op
    /\ set_ptr a h p ob = Some obp
    /\ set_base a h b op = Some obp.
Proof.
  intros W Hsz Hb.
  destruct (access_as_bytes a h o W Hsz) as (offp & Hap & Hfit & Gb & Gp & Sp & Sb).
  destruct (write_bytes_some 0 b o ltac:(lia)) as (ob & H1).
  destruct (write_bytes_some offp (encode_ptr a p) o) as (op & H2);
    [rewrite length_encode_ptr; lia|].
  destruct (write_write_commute 0 offp b (encode_ptr a p) o ob op
              ltac:(lia) H1 H2) as (obp & H12 & H21).
  exists ob, op, obp. rewrite !Sp, !Sb by exact Hb. auto.
Qed.

Lemma stores_commute_lp64 :
  exists ob op obp,
    set_base lp64 VTabCursorHandle (repeat Byte.x2a 8) (repeat Byte.x00 16)
    = Some ob
    /\ set_ptr lp64 VTabCursorHandle 4660%Z (repeat Byte.x00 16) = Some op
    /\ set_ptr lp64 VTabCursorHandle 4660%Z ob = Some obp
    /\ set_base lp64 VTabCursorHandle (repeat Byte.x2a 8) op = Some obp.
Proof.
  apply (stores_commute lp64 VTabCursorHandle (repeat Byte.x00 16) 4660%Z
           (repeat Byte.x2a 8)).
  - reflexivity.
  - reflexivity.
  - reflexivity.
Defined.

(** X6.  Storing into a member of an instance the value just loaded from
    it leaves the object as it is, for the pointer member and for [base];
    the pointer loaded fits a pointer and the [base] loaded has the size of
    its type. *)
Theorem store_of_loaded_is_identity (a : abi) (h : handle) (o : object) :
  abi_wf a = true ->
  sizeof_handle a h = Some (List.length o) ->
  exists q v,
    get_ptr a h o = Some q /\ is_ptr a q = true /\ set_ptr a h q o = Some o
    /\ get_base a h o = Some v /\ List.length v = sizeof_base a h
    /\ set_base a h v o = Some o.
Proof.
  intros W Hsz.
  destruct (access_as_bytes a h o W Hsz) as (offp & Hap & Hfit & Gb & Gp & Sp & Sb).
  pose proof (read_bytes_inside offp (sizeof_ptr a) o Hfit) as Rp.
  pose proof (read_bytes_inside 0 (sizeof_base a h) o ltac:(lia)) as Rb.
  pose proof (read_bytes_length _ _ _ _ Rp) as Lp.
  pose proof (read_bytes_length _ _ _ _ Rb) as Lb.
  eexists _, _. rewrite Gp, Gb, Rp, Rb, Sp, (Sb _ _ Lb). cbn [option_map].
  split; [reflexivity|]. split; [apply is_ptr_decode_ptr; exact Lp|].
  split; [|split; [reflexivity|split; [exact Lb|]]].
  - rewrite encode_decode_ptr by exact Lp. exact (write_read_id _ _ _ _ Rp).
  - exact (write_read_id _ _ _ _ Rb).
Qed.

Lemma store_of_loaded_is_identity_lp64 :
  let o := repeat Byte.x11 24 ++ repeat Byte.x22 8 in
  exists q v,
    get_ptr lp64 VTabHandle o = Some q /\ is_ptr lp64 q = true
    /\ set_ptr lp64 VTabHandle q o = Some o
    /\ get_base lp64 VTabHandle o = Some v
    /\ List.length v = sizeof_base lp64 VTabHandle
    /\ set_base lp64 VTabHandle v o = Some o.
Proof.
  apply (store_of_loaded_is_identity lp64 VTabHandle
           (repeat Byte.x11 24 ++ repeat Byte.x22 8)).
  - reflexivity.
  - reflexivity.
Defined.

(** ** Instances as values *)

(** A store to [base], in one: it succeeds, is read back and keeps the
    pointer member. *)
Lemma set_base_effect (a : abi) (h : handle) (o : object) (b : list byte) :
  abi_wf a = true ->
  sizeof_handle a h = Some (List.length o) ->
  List.length b = sizeof_base a h ->
  exists o', set_base a h b o = Some o'
             /\ get_base a h o' = Some b
             /\ get_ptr a h o' = get_ptr a h o.
Proof.
  intros W Hsz Hb. with_layout a h o W Hsz L.
  destruct (store_base_keeps_ptr a _ _ _ _ _ L o eq_refl b Hb) as (o' & Hs & Hk).
  destruct (load_store_base a _ _ _ _ _ L o eq_refl b Hb) as (o'' & Hs' & Hl).
  rewrite Hs in Hs'. injection Hs' as <-.
  exists o'. by_member. auto.
Qed.

(** What an instance loads: a [base] of the size of its type and a pointer
    that fits a pointer. *)
Lemma loads_typed (a : abi) (h : handle) (o : object) :
  abi_wf a = true ->
  sizeof_handle a h = Some (List.length o) ->
  exists v q, get_base a h o = Some v /\ get_ptr a h o = Some q
              /\ List.length v = sizeof_base a h /\ is_ptr a q = true.
Proof.
  intros W Hsz.
  destruct (access_as_bytes a h o W Hsz) as (offp & Hap & Hfit & Gb & Gp & _).
  pose proof (read_bytes_inside offp (sizeof_ptr a) o Hfit) as Rp.
  pose proof (read_bytes_inside 0 (sizeof_base a h) o ltac:(lia)) as Rb.
  eexists _, _. rewrite Gb, Gp, Rp, Rb. cbn [option_map].
  split; [reflexivity|]. split; [reflexivity|]. split.
  - exact (read_bytes_length _ _ _ _ Rb).
  - apply is_ptr_decode_ptr. exact (read_bytes_length _ _ _ _ Rp).
Qed.

(** X7.  An object of the size of [cpipeline_sqlite3_vtab] holds a value of
    the structure, with a [base] of the size of [sqlite3_vtab] and a
    pointer that fits a pointer; on that value a store to
    [virtual_table_module_ptr] replaces the pointer and keeps [base], and a
    store to [base] replaces [base] and keeps the pointer. *)
Theorem vtab_stores_update_value (a : abi) (o : object) (p : Z)
    (b : list byte) :
  abi_wf a = true ->
  sizeof_handle a VTabHandle = Some (List.length o) ->
  is_ptr a p = true ->
  List.length b = sizeof_sqlite3_vtab a ->
  exists r,
    VTab.read a o = Some r
    /\ List.length (VTab.base r) = sizeof_sqlite3_vtab a
    /\ is_ptr a (VTab.virtual_table_module_ptr r) = true
    /\ (exists o',
           VTab.set_virtual_table_module_ptr a p o = Some o'
           /\ VTab.read a o'
              = Some {| VTab.base := VTab.base r;
                        VTab.virtual_table_module_ptr := p |})
    /\ (exists o',
           VTab.set_base a b o = Some o'
           /\ VTab.read a o'
              = Some {| VTab.base := b;
                        VTab.virtual_table_module_ptr :=
                          VTab.virtual_table_module_ptr r |}).
Proof.
  intros W Hsz Hp Hb.
  destruct (loads_typed a VTabHandle o W Hsz) as (v & q & Gv & Gq & Lv & Pq).
  cbn [get_base get_ptr sizeof_base] in *.
  assert (R : VTab.read a o
              = Some {| VTab.base := v; VTab.virtual_table_module_ptr := q |})
    by (unfold VTab.read; rewrite Gv, Gq; reflexivity).
  eexists. split; [exact R|]. cbn.
  split; [exact Lv|]. split; [exact Pq|]. split.
  - exact (vtab_read_set_ptr a o p _ W Hsz Hp R).
  - destruct (set_base_effect a VTabHandle o b W Hsz Hb) as (o' & Hs & Hg & Hk).
    cbn [set_base get_base get_ptr] in *.
    exists o'. split; [exact Hs|].
    unfold VTab.read. rewrite Hg, Hk, Gq. reflexivity.
Qed.

Lemma vtab_stores_update_value_lp64 :
  let o := repeat Byte.x11 24 ++ repeat Byte.x00 8 in
  exists r,
    VTab.read lp64 o = Some r
    /\ List.length (VTab.base r) = sizeof_sqlite3_vtab lp64
    /\ is_ptr lp64 (VTab.virtual_table_module_ptr r) = true
    /\ (exists o',
           VTab.set_virtual_table_module_ptr lp64 4660%Z o = Some o'
           /\ VTab.read lp64 o'
              = Some {| VTab.base := VTab.base r;
                        VTab.virtual_table_module_ptr := 4660%Z |})
    /\ (exists o',
           VTab.set_base lp64 (repeat Byte.x2a 24) o = Some o'
           /\ VTab.read lp64 o'
              = Some {| VTab.base := repeat Byte.x2a 24;
                        VTab.virtual_table_module_ptr :=
                          VTab.virtual_table_module_ptr r |}).
Proof.
  apply (vtab_stores_update_value lp64
           (repeat Byte.x11 24 ++ repeat Byte.x00 8) 4660%Z (repeat Byte.x2a 24)).
  - reflexivity.
  - reflexivity.
  - reflexivity.
  - reflexivity.
Defined.

(** X8.  An object of the size of [cpipeline_sqlite3_vtab_cursor] holds a
    value of the structure, with a [base] of the size of
    [sqlite3_vtab_cursor] and a pointer that fits a pointer; on that value
    a store to [virtual_table_cursor_ptr] replaces the pointer and keeps
    [base], and a store to [base] replaces [base] and keeps the pointer. *)
Theorem cursor_stores_update_value (a : abi) (o : object) (p : Z)
    (b : list byte) :
  abi_wf a = true ->
  sizeof_handle a VTabCursorHandle = Some (List.length o) ->
  is_ptr a p = true ->
  List.length b = sizeof_sqlite3_vtab_cursor a ->
  exists r,
    Cursor.read a o = Some r
    /\ List.length (Cursor.base r) = sizeof_sqlite3_vtab_cursor a
    /\ is_ptr a (Cursor.virtual_table_cursor_ptr r) = true
    /\ (exists o',
           Cursor.set_virtual_table_cursor_ptr a p o = Some o'
           /\ Cursor.read a o'
              = Some {| Cursor.base := Cursor.base r;
                        Cursor.virtual_table_cursor_ptr := p |})
    /\ (exists o',
           Cursor.set_base a b o = Some o'
           /\ Cursor.read a o'
              = Some {| Cursor.base := b;
                        Cursor.virtual_table_cursor_ptr :=
                          Cursor.virtual_table_cursor_ptr r |}).
Proof.
  intros W Hsz Hp Hb.
  destruct (loads_typed a VTabCursorHandle o W Hsz) as (v & q & Gv & Gq & Lv & Pq).
  cbn [get_base get_ptr sizeof_base] in *.
  assert (R : Cursor.read a o
              = Some {| Cursor.base := v; Cursor.virtual_table_cursor_ptr := q |})
    by (unfold Cursor.read; rewrite Gv, Gq; reflexivity).
  eexists. split; [exact R|]. cbn.
  split; [exact Lv|]. split; [exact Pq|]. split.
  - exact (cursor_read_set_ptr a o p _ W Hsz Hp R).
  - destruct (set_base_effect a VTabCursorHandle o b W Hsz Hb)
      as (o' & Hs & Hg & Hk).
    cbn [set_base get_base get_ptr] in *.
    exists o'. split; [exact Hs|].
    unfold Cursor.read. rewrite Hg, Hk, Gq. reflexivity.
Qed.

Lemma cursor_stores_update_value_ilp32_be :
  let o := repeat Byte.x11 4 ++ repeat Byte.x00 4 in
  exists r,
    Cursor.read ilp32_be o = Some r
    /\ List.length (Cursor.base r) = sizeof_sqlite3_vtab_cursor ilp32_be
    /\ is_ptr ilp32_be (Cursor.virtual_table_cursor_ptr r) = true
    /\ (exists o',
           Cursor.set_virtual_table_cursor_ptr ilp32_be 4660%Z o = Some o'
           /\ Cursor.read ilp32_be o'
              = Some {| Cursor.base := Cursor.base r;
                        Cursor.virtual_table_cursor_ptr := 4660%Z |})
    /\ (exists o',
           Cursor.set_base ilp32_be (repeat Byte.x2a 4) o = Some o'
           /\ Cursor.read ilp32_be o'
              = Some {| Cursor.base := repeat Byte.x2a 4;
                        Cursor.virtual_table_cursor_ptr :=
                          Cursor.virtual_table_cursor_ptr r |}).
Proof.
  apply (cursor_stores_update_value ilp32_be
           (repeat Byte.x11 4 ++ repeat Byte.x00 4) 4660%Z (repeat Byte.x2a 4)).
  - reflexivity.
  - reflexivity.
  - reflexivity.
  - reflexivity.
Defined.

(** ** Instances with the same members *)






